(** * ts-designed: the Optional container and the EntitySerializer field mapper

    A shallow embedding of [Optional.ts] (the abstract class [Optional] with its
    two subclasses [PresentOptional] and [AbsentOptional]) and of
    [EntitySerializer.mapOut], together with the properties the specification
    states about them. *)

From Stdlib Require Import ZArith.
From stdpp Require Import base gmap strings list.

Set Default Proof Using "Type".

(** ** JavaScript values

    [Optional.of] inspects its argument dynamically ([instanceof Optional],
    [== null]) and [orThrow] tests [instanceof Error], so the value universe
    has to contain optionals and errors next to the primitives.  Numbers are
    restricted to the integers; every other object is a reference. *)

Inductive ErrorClass : Type :=
| Error                       (* new Error(msg) *)
| TypeError                   (* TypeError(msg) *)
| OptionalValueMissingError.  (* class OptionalValueMissingError extends Error *)

Inductive value : Type :=
| VUndefined
| VNull
| VBool (b : bool)
| VNum (n : Z)
| VStr (s : string)
| VObject (ref : positive)
| VError (cls : ErrorClass) (message : string)
| VOptional (o : Optional)
with Optional : Type :=
| PresentOptional (held : value)     (* constructor(private value: T) *)
| AbsentOptional.                    (* constructor() *)

(** [value == null] holds of [null] and [undefined] only. *)
Definition nullish (v : value) : bool :=
  match v with
  | VUndefined | VNull => true
  | _ => false
  end.

(** [value instanceof Optional] *)
Definition instanceof_Optional (v : value) : bool :=
  match v with
  | VOptional _ => true
  | _ => false
  end.

(** [err instanceof Error]: the three error classes all extend [Error]. *)
Definition instanceof_Error (v : value) : bool :=
  match v with
  | VError _ _ => true
  | _ => false
  end.

(** ** Effects of caller-supplied callbacks

    A callback may read and write the caller's state and may throw.  A
    computation maps a state to an outcome and a final state; the state
    written before a [throw] is kept. *)

Inductive Outcome (A : Type) : Type :=
| Return (a : A)
| Throw (e : value).
Arguments Return {A} a.
Arguments Throw {A} e.

Definition M (S A : Type) : Type := S -> Outcome A * S.

Definition ret {S A} (a : A) : M S A := fun s => (Return a, s).

Definition throw {S A} (e : value) : M S A := fun s => (Throw e, s).

Definition bind {S A B} (m : M S A) (k : A -> M S B) : M S B :=
  fun s =>
    match m s with
    | (Return a, s') => k a s'
    | (Throw e, s') => (Throw e, s')
    end.

Declare Scope js_scope.
Delimit Scope js_scope with js.
Notation "x <- m ;; k" := (bind m (fun x => k))
  (at level 100, m at next level, right associativity) : js_scope.
Open Scope js_scope.

(** A recording stub: [x => { calls.push(x); return f(x); }].  The log lives
    beside the state [f] works on, so [f] itself cannot touch it. *)
Definition spy {S A B} (f : A -> M S B) : A -> M (list A * S) B :=
  fun a ls =>
    let '(r, s') := f a ls.2 in (r, (ls.1 ++ [a], s')).

(** ** Optional.ts *)

Module Opt.

Definition get_message : string :=
  ".get() was called on an optional that had no value. Add a check before unwrapping.".

Definition orThrow_message : string :=
  "Optional.orThrow callback did not throw or return an error".

(** [static of] *)
Definition Optional_of (v : value) : Optional :=
  match v with
  | VOptional o => o
  | _ => if nullish v then AbsentOptional else PresentOptional v
  end.

(** [static fromJSON] *)
Definition fromJSON (data : value) : Optional := Optional_of data.

(** [static empty] *)
Definition empty : Optional := AbsentOptional.

Definition isPresent (o : Optional) : bool :=
  match o with
  | PresentOptional _ => true
  | AbsentOptional => false
  end.

Definition isAbsent (o : Optional) : bool :=
  match o with
  | PresentOptional _ => false
  | AbsentOptional => true
  end.

Definition get (o : Optional) : Outcome value :=
  match o with
  | PresentOptional v => Return v
  | AbsentOptional => Throw (VError OptionalValueMissingError get_message)
  end.

Definition orElse (o : Optional) (other : value) : value :=
  match o with
  | PresentOptional v => v
  | AbsentOptional => other
  end.

Definition toJSON (o : Optional) (key : string) : value :=
  match o with
  | PresentOptional v => v
  | AbsentOptional => VNull
  end.

Definition asJSON (o : Optional) : value :=
  match o with
  | PresentOptional v => v
  | AbsentOptional => VNull
  end.

Section Combinators.
Context {S : Type}.

(** The predicate is typed [(value: T) => boolean]. *)
Definition filter (o : Optional) (predicate : value -> M S bool) : M S Optional :=
  match o with
  | PresentOptional v =>
      b <- predicate v ;;
      ret (if b : bool then PresentOptional v else AbsentOptional)
  | AbsentOptional => ret AbsentOptional
  end.

Definition map (o : Optional) (transform : value -> M S value) : M S Optional :=
  match o with
  | PresentOptional v => r <- transform v ;; ret (Optional_of r)
  | AbsentOptional => ret AbsentOptional
  end.

Definition flatMap (o : Optional) (transform : value -> M S Optional) : M S Optional :=
  match o with
  | PresentOptional v => transform v
  | AbsentOptional => ret AbsentOptional
  end.

Definition orGet (o : Optional) (supplier : unit -> M S value) : M S value :=
  match o with
  | PresentOptional v => ret v
  | AbsentOptional => supplier tt
  end.

Definition orThrow (o : Optional) (errThrower : unit -> M S value) : M S value :=
  match o with
  | PresentOptional v => ret v
  | AbsentOptional =>
      err <- errThrower tt ;;
      if instanceof_Error err then throw err
      else throw (VError TypeError orThrow_message)
  end.
End Combinators.

End Opt.

(** ** The bridge to AsyncOptional.ts *)

Module Async.

(** What a pending computation eventually does: it is fulfilled with a value,
    rejected with a reason, or it never settles. *)
Inductive Promise (A : Type) : Type :=
| Fulfilled (a : A)
| Rejected (reason : value)
| Pending.
Arguments Fulfilled {A} a.
Arguments Rejected {A} reason.
Arguments Pending {A}.

(** [p.then(onfulfilled)] for a callback that only computes: a rejection and
    a computation that never settles pass through, an exception in the
    callback rejects the new promise. *)
Definition promise_then {A B} (p : Promise A) (onfulfilled : A -> Outcome B) : Promise B :=
  match p with
  | Fulfilled a =>
      match onfulfilled a with
      | Return b => Fulfilled b
      | Throw e => Rejected e
      end
  | Rejected e => Rejected e
  | Pending => Pending
  end.

(** The two shapes [flatMapAsync] accepts from its transform:
    [AsyncOptional<X> | Promise<Optional<X>>]. *)
Inductive Thenable (AsyncOptional : Type) : Type :=
| OfAsyncOptional (a : AsyncOptional)
| OfPromise (p : Promise Optional).
Arguments OfAsyncOptional {AsyncOptional} a.
Arguments OfPromise {AsyncOptional} p.

Section Bridge.
Context {S : Type} {AsyncOptional : Type}.

(** [./AsyncOptional] is imported by [Optional.ts] and enters as parameters:
    [PresentAsyncOptional.fromPromise], [new AbsentAsyncOptional()], and what
    an [AsyncOptional] hands to the callback of its [then]. *)
Variable fromPromise : Promise value -> AsyncOptional.
Variable new_AbsentAsyncOptional : AsyncOptional.
Variable async_then : AsyncOptional -> Promise Optional.

(** What [.then] of either shape delivers. *)
Definition settle (t : Thenable AsyncOptional) : Promise Optional :=
  match t with
  | OfAsyncOptional a => async_then a
  | OfPromise p => p
  end.

Definition mapAsync (o : Optional) (transform : value -> M S (Promise value)) : M S AsyncOptional :=
  match o with
  | PresentOptional v => p <- transform v ;; ret (fromPromise p)
  | AbsentOptional => ret new_AbsentAsyncOptional
  end.

Definition flatMapAsync (o : Optional) (transform : value -> M S (Thenable AsyncOptional)) : M S AsyncOptional :=
  match o with
  | PresentOptional v =>
      t <- transform v ;;
      ret (fromPromise (promise_then (settle t) (fun v' => Return (Opt.orElse v' VNull))))
  | AbsentOptional => ret new_AbsentAsyncOptional
  end.
End Bridge.

(** Modelled from the spec: the asynchronous hierarchy of [./AsyncOptional],
    which is not part of the sources.  A present instance wraps a pending
    computation, an absent one is decided without any; awaiting either gives
    a synchronous [Optional] (a computation resolving to 5 gives a present
    optional holding 5). *)
Inductive AsyncOptionalModel : Type :=
| PresentAsyncOptional (promise : Promise value)
| AbsentAsyncOptional.

Definition await (a : AsyncOptionalModel) : Promise Optional :=
  match a with
  | PresentAsyncOptional p => promise_then p (fun v => Return (Opt.Optional_of v))
  | AbsentAsyncOptional => Fulfilled AbsentOptional
  end.

End Async.

(** ** EntitySerializer.ts: [mapOut] *)

Module Serializer.

(** Objects are property tables in a store; [loc] is an object's identity. *)
Definition loc : Type := positive.

(** [MapOutArg<T, O>]: a field name, [{field, map}] or
    [{from, map: {to, with}}].  The mapping functions are functions of the
    value they are given. *)
Inductive MapOutArg : Type :=
| SameTypeField (name : string)
| MapDirect (field : string) (map : value -> value)
| MapIndirect (from : string) (to : string) (mapper : value -> value).

Definition isSameTypeMap (f : MapOutArg) : bool :=
  match f with SameTypeField _ => true | _ => false end.

(** ["field" in f && "map" in f] *)
Definition isDirectMap (f : MapOutArg) : bool :=
  match f with MapDirect _ _ => true | _ => false end.

(** ["from" in f && "map" in f] *)
Definition isIndirectMap (f : MapOutArg) : bool :=
  match f with MapIndirect _ _ _ => true | _ => false end.

(** The object stored at [l]. *)
Definition object_at (h : gmap loc (gmap string value)) (l : loc) : gmap string value :=
  default ∅ (h !! l).

(** [o[k]]: a property that is not there reads as [undefined]. *)
Definition read_prop (h : gmap loc (gmap string value)) (l : loc) (k : string) : value :=
  default VUndefined (object_at h l !! k).

(** [o[k] = v] *)
Definition write_prop (h : gmap loc (gmap string value)) (l : loc) (k : string) (v : value)
  : gmap loc (gmap string value) :=
  <[l := <[k := v]> (object_at h l)]> h.

(** [constructor(private instance: T)] *)
Record EntitySerializer : Type := { instance : loc }.

(** The body of the [forEach] callback of [performMapOut]. *)
Definition mapOne (this : EntitySerializer) (target : loc)
  (h : gmap loc (gmap string value)) (mapping : MapOutArg) : gmap loc (gmap string value) :=
  match mapping with
  | SameTypeField name =>
      write_prop h target name (read_prop h (instance this) name)
  | MapDirect field map =>
      write_prop h target field (map (read_prop h (instance this) field))
  | MapIndirect from to mapper =>
      write_prop h target to (mapper (read_prop h (instance this) from))
  end.

Definition performMapOut (this : EntitySerializer) (target : loc) (mappings : list MapOutArg)
  (h : gmap loc (gmap string value)) : loc * gmap loc (gmap string value) :=
  (target, fold_left (mapOne this target) mappings h).

Definition mapOut (this : EntitySerializer) (target : loc) (fields : list MapOutArg)
  (h : gmap loc (gmap string value)) : loc * gmap loc (gmap string value) :=
  performMapOut this target fields h.



End Serializer.

(** ** Optionals built through the public interface *)

Module Built.
Import Opt.



End Built.

(** ** Callbacks used in the examples *)

Module Samples.

(** [x => g(f(x))] *)
Definition compose {S} (g f : value -> M S value) : value -> M S value :=
  fun x => r <- f x ;; g r.

(** [() => null] *)
Definition const_null {S} : value -> M S value := fun _ => ret VNull.

(** [_ => Optional.of(7)] *)
Definition wrap_seven : value -> M unit value :=
  fun _ => ret (VOptional (Opt.Optional_of (VNum 7))).

(** [x => x instanceof Optional ? "optional" : "raw"] *)
Definition tell_optional : value -> M unit value :=
  fun x => ret (if instanceof_Optional x then VStr "optional" else VStr "raw").

(** [s => s + "!"], strings only *)
Definition exclaim : value -> M unit value :=
  fun x => ret (match x with VStr s => VStr (s ++ "!") | _ => x end).


(** [n => n > 5] *)
Definition greater_than_five : value -> M unit bool :=
  fun x => ret (match x with VNum n => (5 <? n)%Z | _ => false end).

(** [n => n === 5] *)
Definition equals_five : value -> M unit bool :=
  fun x => ret (match x with VNum n => (n =? 5)%Z | _ => false end).

(** [() => new Error("e")] *)
Definition new_error : unit -> M unit value :=
  fun _ => ret (VError Error "e").

End Samples.

(** ** More callbacks for the examples *)

Module MoreSamples.

(** [x => { count++; throw new Error("boom"); }] *)
Definition count_then_throw {A} : value -> M nat A :=
  fun _ n => (Throw (VError Error "boom"), Datatypes.S n).

(** [() => "fallback"] *)
Definition fallback_supplier : unit -> M unit value :=
  fun _ => ret (VStr "fallback").

(** [x => Optional.of(x).filter(n => n > 5)] as a transform for [flatMap] *)
Definition keep_large : value -> M unit Optional :=
  fun x => Opt.filter (Opt.Optional_of x) Samples.greater_than_five.

(** [async n => n + 1]: a computation that is fulfilled at once *)
Definition resolved_succ : value -> M unit (Async.Promise value) :=
  fun x => ret (Async.Fulfilled (match x with VNum n => VNum (n + 1) | _ => x end)).

End MoreSamples.

(** ** EntitySerializer.ts: [getValue]

    [getValue] reads a property path off any value.  Stored objects are the
    property tables of [Serializer]; what a property read finds elsewhere (on
    a prototype, on a primitive, on an [Error] or [Optional] instance) and
    what an object's own [asJSON] method does are not fixed by this file and
    enter as parameters. *)

Module Path.
Import Stdlib.Strings.Ascii.
Import Serializer.

(** [s.replace(/a/g, b)] for single characters *)
Fixpoint replace_char (a b : Ascii.ascii) (s : string) : string :=
  match s with
  | EmptyString => EmptyString
  | String c r => String (if Ascii.eqb c a then b else c) (replace_char a b r)
  end.

(** [s.replace(/a/g, "")] *)
Fixpoint remove_char (a : Ascii.ascii) (s : string) : string :=
  match s with
  | EmptyString => EmptyString
  | String c r => if Ascii.eqb c a then remove_char a r else String c (remove_char a r)
  end.

(** [s.split(a)]: the empty string splits into one empty piece. *)
Fixpoint split_char (a : Ascii.ascii) (s : string) : list string :=
  match s with
  | EmptyString => [EmptyString]
  | String c r =>
      if Ascii.eqb c a then EmptyString :: split_char a r
      else match split_char a r with
           | k :: ks => String c k :: ks
           | [] => [String c EmptyString]
           end
  end.

(** [path.replace(/\[/g, ".").replace(/\]/g, "").split(".")] *)
Definition path_keys (path : string) : list string :=
  split_char "."%char (remove_char "]"%char (replace_char "["%char "."%char path)).

(** Whether a character occurs in a string. *)
Fixpoint has_char (a : Ascii.ascii) (s : string) : bool :=
  match s with
  | EmptyString => false
  | String c r => Ascii.eqb c a || has_char a r
  end.

(** What [o || {}] tests: [undefined], [null], [false], [0] and [""] are falsy. *)
Definition truthy (v : value) : bool :=
  match v with
  | VUndefined | VNull => false
  | VBool b => b
  | VNum n => negb (n =? 0)%Z
  | VStr s => negb (String.eqb s EmptyString)
  | VObject _ | VError _ _ | VOptional _ => true
  end.

(** [typeof v === "object"]: stored objects are not functions. *)
Definition typeof_object (v : value) : bool :=
  match v with
  | VNull | VObject _ | VError _ _ | VOptional _ => true
  | _ => false
  end.

Section GetValue.
(** [v[k]] where [k] is not an own property of a stored object. *)
Variable inherited : value -> string -> value.
(** [({})[k]] *)
Variable Object_prototype : string -> value.
(** ["asJSON" in o] by inheritance, and what [o.asJSON()] does, for a stored object. *)
Variable inherits_asJSON : loc -> bool.
Variable call_asJSON : loc -> Outcome value.

(** [(o || {})[k]] *)
Definition step (h : gmap loc (gmap string value)) (o : value) (k : string) : value :=
  if truthy o then
    match o with
    | VObject l =>
        match object_at h l !! k with
        | Some v => v
        | None => inherited o k
        end
    | _ => inherited o k
    end
  else Object_prototype k.

(** The [reduce] over the keys of the path. *)
Definition traverse (h : gmap loc (gmap string value)) (keys : list string) (object : value)
  : value :=
  fold_left (step h) keys object.

(** ["asJSON" in value], for a value with [typeof value === "object"].  The
    three error classes define no such method; [Optional] does. *)
Definition in_asJSON (h : gmap loc (gmap string value)) (v : value) : bool :=
  match v with
  | VObject l => bool_decide (is_Some (object_at h l !! "asJSON")) || inherits_asJSON l
  | VOptional _ => true
  | _ => false
  end.

Definition getValue (h : gmap loc (gmap string value)) (path : string) (object : value)
  : Outcome value :=
  let v := traverse h (path_keys path) object in
  if truthy v && typeof_object v && in_asJSON h v then
    match v with
    | VOptional o => Return (Opt.asJSON o)
    | VObject l => call_asJSON l
    | _ => Return v
    end
  else Return v.
End GetValue.

(** The built-in environment of the examples: nothing is inherited. *)
Definition nothing_inherited : value -> string -> value := fun _ _ => VUndefined.
Definition bare_prototype : string -> value := fun _ => VUndefined.
Definition no_asJSON : loc -> bool := fun _ => false.
Definition asJSON_unused : loc -> Outcome value := fun _ => Return VUndefined.

(** [{ user: { name: "Ann", nick: Optional.empty() }, tags: { 0: "x" } }] *)
Definition sample_store : gmap loc (gmap string value) :=
  {[ 1%positive := {[ "user" := VObject 2; "tags" := VObject 3 ]};
     2%positive := {[ "name" := VStr "Ann"; "nick" := VOptional AbsentOptional ]};
     3%positive := {[ "0" := VStr "x" ]} ]}.

End Path.

(** ** EntitySerializer.ts: [mapTo]

    A mapping object is read through [Object.entries]: a list of keys, each
    with a config told apart by [typeof].  A function config is a function of
    its two arguments (the instance's property and the instance) and of the
    store it reads them in.  [mapTo] descends into [target[k]]; where that
    is neither null-equivalent nor a stored object (a primitive, an [Error]
    or [Optional] instance) the embedding stops and gives no result. *)

Module MapTo.
Import Serializer Path.

#[local] Set Warnings "-register-all".
Inductive MapConfig : Type :=
| CfgFunction (f : value -> loc -> gmap loc (gmap string value) -> value)
| CfgObject (entries : list (string * MapConfig))
| CfgNull
| CfgString (path : string)
| CfgOther.     (* undefined, a number, a boolean: no [typeof] test holds *)

Section MapTo.
Variable inherited : value -> string -> value.
Variable Object_prototype : string -> value.
Variable inherits_asJSON : loc -> bool.
Variable call_asJSON : loc -> Outcome value.
Variable this : EntitySerializer.

(** [{}]: a new object, at a location the store does not use. *)
Definition new_object (h : gmap loc (gmap string value)) : loc := fresh (dom h).

Definition allocate (h : gmap loc (gmap string value)) : gmap loc (gmap string value) :=
  <[new_object h := ∅]> h.

(** The body of the [forEach] callback for the entry [[k, config]], and the
    [forEach] of the recursive call inside it. *)
Fixpoint mapEntry (config : MapConfig) (k : string) (target : loc)
  (h : gmap loc (gmap string value)) {struct config}
  : option (Outcome unit * gmap loc (gmap string value)) :=
  match config with
  | CfgFunction f =>
      Some (Return tt,
            write_prop h target k (f (read_prop h (instance this) k) (instance this) h))
  | CfgObject entries =>
      let h1 :=
        if nullish (read_prop h target k)
        then write_prop (allocate h) target k (VObject (new_object h))
        else h in
      match read_prop h1 target k with
      | VObject nested =>
          (fix each (es : list (string * MapConfig)) (h : gmap loc (gmap string value)) :=
             match es with
             | [] => Some (Return tt, h)
             | (k', config') :: es' =>
                 match mapEntry config' k' nested h with
                 | Some (Return _, h') => each es' h'
                 | other => other
                 end
             end) entries h1
      | _ => None
      end
  | CfgNull => Some (Return tt, h)
  | CfgString path =>
      match getValue inherited Object_prototype inherits_asJSON call_asJSON h path
              (VObject (instance this)) with
      | Return v => Some (Return tt, write_prop h target k v)
      | Throw e => Some (Throw e, h)
      end
  | CfgOther => Some (Return tt, h)
  end.

(** [Object.entries(mapping).forEach(...)] *)
Fixpoint mapEntries (mapping : list (string * MapConfig)) (target : loc)
  (h : gmap loc (gmap string value)) : option (Outcome unit * gmap loc (gmap string value)) :=
  match mapping with
  | [] => Some (Return tt, h)
  | (k, config) :: rest =>
      match mapEntry config k target h with
      | Some (Return _, h') => mapEntries rest target h'
      | other => other
      end
  end.

(** [mapTo(mapping, target = {})]: [None] for [target] is the omitted argument. *)
Definition mapTo (mapping : list (string * MapConfig)) (target : option loc)
  (h : gmap loc (gmap string value)) : option (Outcome loc * gmap loc (gmap string value)) :=
  let '(t, h0) :=
    match target with
    | Some t => (t, h)
    | None => (new_object h, allocate h)
    end in
  match mapEntries mapping t h0 with
  | Some (Return _, h') => Some (Return t, h')
  | Some (Throw e, h') => Some (Throw e, h')
  | None => None
  end.
End MapTo.


(** [{ name: "name", contact: { alias: "nick", upper: v => v } }] *)
Definition sample_mapping : list (string * MapConfig) :=
  [ ("name", CfgString "name");
    ("contact", CfgObject [ ("alias", CfgString "nick");
                            ("upper", CfgFunction (fun v _ _ => v)) ]) ].

(** The sample mapping run on the sample store, for the serializer of the
    user object at location 2, with no target given. *)
Definition sample_run : option (Outcome loc * gmap loc (gmap string value)) :=
  mapTo nothing_inherited bare_prototype no_asJSON asJSON_unused {| instance := 2%positive |}
    sample_mapping None sample_store.

End MapTo.

(** * Properties of Optional.ts *)

Module OptFacts.
Import Opt Samples.

(** Running a computation: case on what a callback does in the state at hand. *)
Ltac run_callback c :=
  let r := fresh "r" in
  let e := fresh "e" in
  let s' := fresh "s'" in
  let E := fresh "E" in
  destruct c as [[r | e] s'] eqn:E; simpl in *.

Ltac unfold_js := unfold map, flatMap, filter, orGet, orThrow, bind, ret, throw, spy in *.

Lemma of_optional (o : Optional) : Optional_of (VOptional o) = o.
Proof. reflexivity. Qed.

Lemma of_plain (v : value) :
  instanceof_Optional v = false ->
  Optional_of v = if nullish v then AbsentOptional else PresentOptional v.
Proof. destruct v; simpl; intros H; try reflexivity; discriminate H. Qed.

Lemma of_null_equivalent (v : value) : nullish v = true -> Optional_of v = AbsentOptional.
Proof. destruct v; simpl; intros H; try reflexivity; discriminate H. Qed.

Lemma presence_exclusive (o : Optional) : isPresent o = negb (isAbsent o).
Proof. destruct o; reflexivity. Qed.

(** [Optional.of(Optional.of(v))] is [Optional.of(v)]. *)
Lemma of_idempotent (v : value) : Optional_of (VOptional (Optional_of v)) = Optional_of v.
Proof. reflexivity. Qed.

Lemma fromJSON_is_of (data : value) : fromJSON data = Optional_of data.
Proof. reflexivity. Qed.

Example filter_greater_than_five :
  filter (Optional_of (VNum 5)) greater_than_five tt = (Return AbsentOptional, tt).
Proof. reflexivity. Qed.

Example filter_equals_five :
  filter (Optional_of (VNum 5)) equals_five tt = (Return (PresentOptional (VNum 5)), tt).
Proof. reflexivity. Qed.

Example map_exclaim :
  map (Optional_of (VStr "hello")) exclaim tt = (Return (PresentOptional (VStr "hello!")), tt).
Proof. reflexivity. Qed.

(** C1, as the specification words it, fails: an [Optional] instance is a
    non-null value, yet [of] hands it back unchanged, so an absent instance
    stays absent and a present one yields what it holds, not itself. *)
Lemma of_non_null_instance_counterexample :
  nullish (VOptional AbsentOptional) = false /\
  isPresent (Optional_of (VOptional AbsentOptional)) = false /\
  nullish (VOptional (PresentOptional (VNum 5))) = false /\
  get (Optional_of (VOptional (PresentOptional (VNum 5)))) = Return (VNum 5) /\
  VNum 5 <> VOptional (PresentOptional (VNum 5)).
Proof. repeat split; discriminate. Qed.

(** C1 (amended): for every non-null value [v] that is not itself an
    [Optional] instance, [Optional.of(v)] is present, [isPresent()] is true
    and [get()] returns exactly [v]; an [Optional] instance is returned
    unchanged; for every null-equivalent [v], [Optional.of(v)] is absent,
    [isAbsent()] is true and [get()] raises the value-missing error. *)
Theorem of_classifies :
  (forall v, nullish v = false -> instanceof_Optional v = false ->
     Optional_of v = PresentOptional v /\
     isPresent (Optional_of v) = true /\
     get (Optional_of v) = Return v) /\
  (forall o, Optional_of (VOptional o) = o) /\
  (forall v, nullish v = true ->
     Optional_of v = AbsentOptional /\
     isAbsent (Optional_of v) = true /\
     get (Optional_of v) = Throw (VError OptionalValueMissingError get_message)).
Proof.
  split; [| split].
  - intros v Hn Ho. rewrite (of_plain v Ho), Hn. auto.
  - exact of_optional.
  - intros v Hn. rewrite (of_null_equivalent v Hn). auto.
Qed.

Lemma of_classifies_witness :
  (Optional_of (VStr "Hello") = PresentOptional (VStr "Hello") /\
   isPresent (Optional_of (VStr "Hello")) = true /\
   get (Optional_of (VStr "Hello")) = Return (VStr "Hello")) /\
  (Optional_of VUndefined = AbsentOptional /\
   isAbsent (Optional_of VUndefined) = true /\
   get (Optional_of VUndefined) = Throw (VError OptionalValueMissingError get_message)).
Proof.
  split.
  - apply (proj1 of_classifies (VStr "Hello")); reflexivity.
  - apply (proj2 (proj2 of_classifies) VUndefined); reflexivity.
Defined.

(** C2: on a present optional, [map] applies the transform to the held value
    and classifies what it returns with [of] (an exception of the transform
    propagates); a transform that returns a null-equivalent value therefore
    gives an absent optional, and [Optional.of(v).map(() => null)] is absent
    for every non-null [v]. *)
Theorem map_reclassifies {S : Type} (f : value -> M S value) (s : S) :
  (forall x,
     map (PresentOptional x) f s =
       match f x s with
       | (Return r, s') => (Return (Optional_of r), s')
       | (Throw e, s') => (Throw e, s')
       end) /\
  (forall x r s', f x s = (Return r, s') -> nullish r = true ->
     map (PresentOptional x) f s = (Return AbsentOptional, s')) /\
  (forall v, nullish v = false ->
     exists o, map (Optional_of v) const_null s = (Return o, s) /\ isAbsent o = true).
Proof.
  split; [| split].
  - intros x. unfold_js. run_callback (f x s); reflexivity.
  - intros x r s' E Hn. unfold_js. rewrite E. by rewrite (of_null_equivalent r Hn).
  - intros v _. exists AbsentOptional. split; [| reflexivity].
    destruct (Optional_of v); reflexivity.
Qed.

Lemma map_reclassifies_witness :
  map (PresentOptional (VNum 5)) const_null tt = (Return AbsentOptional, tt) /\
  exists o, map (Optional_of (VNum 5)) const_null tt = (Return o, tt) /\ isAbsent o = true.
Proof.
  split.
  - apply (proj1 (proj2 (map_reclassifies const_null tt)) (VNum 5) VNull tt); reflexivity.
  - apply (proj2 (proj2 (map_reclassifies const_null tt)) (VNum 5)); reflexivity.
Defined.

(** [map] twice is [map] of the composite as soon as the first transform
    returns a value that [of] wraps as it is. *)
Lemma map_map_compose {S : Type} (o : Optional) (f g : value -> M S value) (s : S) :
  (forall x r s1, o = PresentOptional x -> f x s = (Return r, s1) ->
     nullish r = false /\ instanceof_Optional r = false) ->
  (o1 <- map o f ;; map o1 g) s = map o (compose g f) s.
Proof.
  intros Hf. destruct o as [x |]; [| reflexivity].
  unfold compose. unfold_js.
  run_callback (f x s); [| reflexivity].
  destruct (Hf x r s' eq_refl E) as [Hn Ho].
  rewrite (of_plain r Ho), Hn. reflexivity.
Qed.

(** C3, as the specification words it, fails: [f] may return an [Optional]
    instance, which is not null; [map] then unwraps it, so [g] sees the held
    value on the left and the instance on the right. *)
Lemma functor_law_counterexample :
  wrap_seven (VNum 1) tt = (Return (VOptional (PresentOptional (VNum 7))), tt) /\
  nullish (VOptional (PresentOptional (VNum 7))) = false /\
  tell_optional (VOptional (PresentOptional (VNum 7))) tt = (Return (VStr "optional"), tt) /\
  nullish (VStr "optional") = false /\
  (o1 <- map (Optional_of (VNum 1)) wrap_seven ;; map o1 tell_optional) tt
    = (Return (PresentOptional (VStr "raw")), tt) /\
  map (Optional_of (VNum 1)) (compose tell_optional wrap_seven) tt
    = (Return (PresentOptional (VStr "optional")), tt) /\
  (o1 <- map (Optional_of (VNum 1)) wrap_seven ;; map o1 tell_optional) tt
    <> map (Optional_of (VNum 1)) (compose tell_optional wrap_seven) tt.
Proof. repeat split; discriminate. Qed.

(** C3 (amended): for every value [v] and all functions [f] and [g] such that
    [f], applied to the value [Optional.of(v)] holds, returns neither a
    null-equivalent value nor an [Optional] instance, and [g] applied to that
    result does not return a null-equivalent value,
    [Optional.of(v).map(f).map(g)] equals
    [Optional.of(v).map(x => g(f(x)))]: same optional, same final state. *)
Theorem functor_composition {S : Type} (v : value) (f g : value -> M S value) (s : S) :
  (forall x r s1, Optional_of v = PresentOptional x -> f x s = (Return r, s1) ->
     nullish r = false /\ instanceof_Optional r = false) ->
  (forall x r s1 r' s2, Optional_of v = PresentOptional x -> f x s = (Return r, s1) ->
     g r s1 = (Return r', s2) -> nullish r' = false) ->
  (o1 <- map (Optional_of v) f ;; map o1 g) s = map (Optional_of v) (compose g f) s.
Proof. intros Hf _. by apply map_map_compose. Qed.

Lemma functor_composition_witness :
  (o1 <- map (Optional_of (VStr "a")) exclaim ;; map o1 exclaim) tt
    = map (Optional_of (VStr "a")) (compose exclaim exclaim) tt.
Proof.
  apply (functor_composition (VStr "a") exclaim exclaim tt).
  - intros x r s1 Hx Hr. simpl in Hx. injection Hx as <-.
    unfold exclaim, ret in Hr. injection Hr as <- _. split; reflexivity.
  - intros x r s1 r' s2 Hx Hr Hr'. simpl in Hx. injection Hx as <-.
    unfold exclaim, ret in Hr. injection Hr as <- _.
    unfold exclaim, ret in Hr'. injection Hr' as <- _. reflexivity.
Defined.

(** C4: on a present optional, [flatMap] runs the transform on the held value
    and its result is the result of [flatMap], as it is: same outcome, same
    final state, whatever optional it is.  On an absent optional, [flatMap]
    returns an absent optional and the transform is not invoked. *)
Theorem flatMap_join {S : Type} (f : value -> M S Optional) (calls : list value) (s : S) :
  (forall x, flatMap (PresentOptional x) f s = f x s) /\
  (forall x o, flatMap (PresentOptional x) (fun _ => ret o) s = (Return o, s)) /\
  flatMap AbsentOptional f s = (Return AbsentOptional, s) /\
  flatMap AbsentOptional (spy f) (calls, s) = (Return AbsentOptional, (calls, s)).
Proof. repeat split. Qed.

(** Left identity of the monad, for the values [of] wraps. *)
Lemma flatMap_of {S : Type} (v : value) (f : value -> M S Optional) (s : S) :
  nullish v = false -> instanceof_Optional v = false ->
  flatMap (Optional_of v) f s = f v s.
Proof. intros Hn Ho. by rewrite (of_plain v Ho), Hn. Qed.

(** Right identity of the monad, on optionals that hold a plain value. *)
Lemma flatMap_of_id {S : Type} (o : Optional) (s : S) :
  (forall x, o = PresentOptional x -> nullish x = false /\ instanceof_Optional x = false) ->
  flatMap o (fun x => ret (Optional_of x)) s = (Return o, s).
Proof.
  intros H. destruct o as [x |]; [| reflexivity].
  destruct (H x eq_refl) as [Hn Ho]. simpl. unfold ret.
  by rewrite (of_plain x Ho), Hn.
Qed.

(** C7: on an absent optional, [map], [flatMap] and [filter] return without
    invoking their callback: a recording stub has recorded nothing and the
    state the callback works on is as before.  On a present optional, each of
    them has invoked its callback exactly once, on the held value, by the
    time it returns, whether the callback returned or threw. *)
Theorem callbacks_invoked {S : Type}
  (f : value -> M S value) (k : value -> M S Optional) (p : value -> M S bool)
  (calls : list value) (s : S) :
  (map AbsentOptional (spy f) (calls, s) = (Return AbsentOptional, (calls, s)) /\
   flatMap AbsentOptional (spy k) (calls, s) = (Return AbsentOptional, (calls, s)) /\
   filter AbsentOptional (spy p) (calls, s) = (Return AbsentOptional, (calls, s))) /\
  (forall x,
     (map (PresentOptional x) (spy f) (calls, s)).2 = (calls ++ [x], (f x s).2) /\
     (flatMap (PresentOptional x) (spy k) (calls, s)).2 = (calls ++ [x], (k x s).2) /\
     (filter (PresentOptional x) (spy p) (calls, s)).2 = (calls ++ [x], (p x s).2)).
Proof.
  split; [repeat split |].
  intros x. unfold_js. simpl.
  repeat split.
  - run_callback (f x s); reflexivity.
  - run_callback (k x s); reflexivity.
  - run_callback (p x s); reflexivity.
Qed.

(** [orElse] and [orGet] next to [orThrow]: the held value when present,
    the fallback or the supplier's result when absent. *)
Lemma orElse_orGet {S : Type} (supplier : unit -> M S value) (calls : list unit) (s : S) :
  (forall v other, orElse (PresentOptional v) other = v) /\
  (forall other, orElse AbsentOptional other = other) /\
  (forall v, orGet (PresentOptional v) (spy supplier) (calls, s) = (Return v, (calls, s))) /\
  (orGet AbsentOptional (spy supplier) (calls, s)).1 = (supplier tt s).1 /\
  (orGet AbsentOptional (spy supplier) (calls, s)).2 = (calls ++ [tt], (supplier tt s).2).
Proof.
  repeat split; unfold_js; simpl; by destruct (supplier tt s).
Qed.

(** C8: on a present optional, [orThrow] returns the held value and does not
    invoke its argument.  On an absent optional it invokes the supplier
    exactly once; it throws the error the supplier returns, lets an
    exception of the supplier through, and throws a [TypeError] when the
    supplier returns something that is not an error.  So on an absent
    optional [orThrow] never returns normally. *)
Theorem orThrow_contract {S : Type} (errThrower : unit -> M S value)
  (calls : list unit) (s : S) :
  (forall v, orThrow (PresentOptional v) (spy errThrower) (calls, s) = (Return v, (calls, s))) /\
  (forall err s', errThrower tt s = (Return err, s') -> instanceof_Error err = true ->
     orThrow AbsentOptional (spy errThrower) (calls, s) = (Throw err, (calls ++ [tt], s'))) /\
  (forall e s', errThrower tt s = (Throw e, s') ->
     orThrow AbsentOptional (spy errThrower) (calls, s) = (Throw e, (calls ++ [tt], s'))) /\
  (forall r s', errThrower tt s = (Return r, s') -> instanceof_Error r = false ->
     orThrow AbsentOptional (spy errThrower) (calls, s)
       = (Throw (VError TypeError orThrow_message), (calls ++ [tt], s'))) /\
  (exists e, (orThrow AbsentOptional errThrower s).1 = Throw e).
Proof.
  repeat split.
  - intros err s' E He. unfold_js. simpl. rewrite E. simpl. by rewrite He.
  - intros e s' E. unfold_js. simpl. by rewrite E.
  - intros r s' E He. unfold_js. simpl. rewrite E. simpl. by rewrite He.
  - unfold_js. run_callback (errThrower tt s); [| eauto].
    destruct (instanceof_Error r); simpl; eauto.
Qed.

Lemma orThrow_contract_witness :
  orThrow AbsentOptional (spy new_error) ([], tt) = (Throw (VError Error "e"), ([tt], tt)) /\
  orThrow AbsentOptional (spy (fun _ : unit => @ret unit value (VNum 0))) ([], tt)
    = (Throw (VError TypeError orThrow_message), ([tt], tt)).
Proof.
  split.
  - apply (proj1 (proj2 (orThrow_contract new_error [] tt)) (VError Error "e") tt);
      reflexivity.
  - apply (proj1 (proj2 (proj2 (proj2
             (orThrow_contract (fun _ : unit => @ret unit value (VNum 0)) [] tt))))
             (VNum 0) tt); reflexivity.
Defined.

(** C9: [asJSON()] and [toJSON()] return the held value on a present optional
    and [null] on an absent one, which is neither [undefined] nor a missing
    result; [Optional.of(5).asJSON()] is [5] and [Optional.empty().asJSON()]
    is [null]. *)
Theorem json_contract (key : string) :
  (forall v, asJSON (PresentOptional v) = v /\ toJSON (PresentOptional v) key = v) /\
  (asJSON AbsentOptional = VNull /\ toJSON AbsentOptional key = VNull) /\
  (asJSON AbsentOptional <> VUndefined /\ toJSON AbsentOptional key <> VUndefined) /\
  (asJSON (Optional_of (VNum 5)) = VNum 5 /\ toJSON (Optional_of (VNum 5)) key = VNum 5) /\
  (asJSON empty = VNull /\ toJSON empty key = VNull).
Proof. repeat split; discriminate. Qed.

End OptFacts.

(** * The invariant of the Present variant *)

Module BuiltFacts.
Import Opt Built Samples.








End BuiltFacts.

(** * The bridge from Optional to AsyncOptional *)

Module AsyncFacts.
Import Opt Async.

Section Bridge.
Context {S : Type} {AsyncOptional : Type}.
Variable fromPromise : Promise value -> AsyncOptional.
Variable new_AbsentAsyncOptional : AsyncOptional.
Variable async_then : AsyncOptional -> Promise Optional.

(** C5: on a present optional, [flatMapAsync] invokes the transform once on
    the held value and takes either shape of its result, an [AsyncOptional]
    or a pending computation of an [Optional]: when that result resolves to
    an optional [o], the computation handed to [fromPromise] resolves to
    [o.orElse(null)], the held value or [null]; a rejection stays a
    rejection.  On an absent optional it returns the absent [AsyncOptional]
    and the transform is not invoked. *)
Theorem flatMapAsync_normalizes (transform : value -> M S (Thenable AsyncOptional))
  (calls : list value) (s : S) :
  (forall x t s', transform x s = (Return t, s') ->
     flatMapAsync fromPromise new_AbsentAsyncOptional async_then
       (PresentOptional x) (spy transform) (calls, s) =
     (Return (fromPromise
                (promise_then (settle async_then t) (fun o => Return (orElse o VNull)))),
      (calls ++ [x], s'))) /\
  (forall x p o s', transform x s = (Return (OfPromise p), s') -> p = Fulfilled o ->
     flatMapAsync fromPromise new_AbsentAsyncOptional async_then
       (PresentOptional x) transform s =
     (Return (fromPromise (Fulfilled (orElse o VNull))), s')) /\
  (forall x a o s', transform x s = (Return (OfAsyncOptional a), s') ->
     async_then a = Fulfilled o ->
     flatMapAsync fromPromise new_AbsentAsyncOptional async_then
       (PresentOptional x) transform s =
     (Return (fromPromise (Fulfilled (orElse o VNull))), s')) /\
  (forall x t e s', transform x s = (Return t, s') -> settle async_then t = Rejected e ->
     flatMapAsync fromPromise new_AbsentAsyncOptional async_then
       (PresentOptional x) transform s =
     (Return (fromPromise (Rejected e)), s')) /\
  flatMapAsync fromPromise new_AbsentAsyncOptional async_then
    AbsentOptional (spy transform) (calls, s) =
  (Return new_AbsentAsyncOptional, (calls, s)).
Proof.
  repeat split.
  - intros x t s' E. unfold flatMapAsync, bind, ret, spy. simpl. by rewrite E.
  - intros x p o s' E ->. unfold flatMapAsync, bind, ret. by rewrite E.
  - intros x a o s' E Ha. unfold flatMapAsync, bind, ret. rewrite E. simpl.
    by rewrite Ha.
  - intros x t e s' E Ht. unfold flatMapAsync, bind, ret. rewrite E. simpl. rewrite Ht.
    reflexivity.
Qed.

(** [mapAsync] beside it: the transform's pending computation is lifted as it
    is, and an absent optional does not invoke the transform. *)
Lemma mapAsync_lifts (transform : value -> M S (Promise value)) (calls : list value) (s : S) :
  (forall x p s', transform x s = (Return p, s') ->
     mapAsync fromPromise new_AbsentAsyncOptional (PresentOptional x) (spy transform) (calls, s)
       = (Return (fromPromise p), (calls ++ [x], s'))) /\
  mapAsync fromPromise new_AbsentAsyncOptional AbsentOptional (spy transform) (calls, s)
    = (Return new_AbsentAsyncOptional, (calls, s)).
Proof.
  split; [| reflexivity].
  intros x p s' E. unfold mapAsync, bind, ret, spy. simpl. by rewrite E.
Qed.
End Bridge.

(** With the asynchronous hierarchy as the specification describes it,
    awaiting what [flatMapAsync] returns gives back the optional the
    transform's result resolves to, as long as that optional holds a plain
    non-null value or nothing. *)
Lemma await_flatMapAsync {S : Type} (transform : value -> M S (Thenable AsyncOptionalModel))
  (x : value) (t : Thenable AsyncOptionalModel) (o : Optional) (s s' : S) :
  transform x s = (Return t, s') ->
  settle await t = Fulfilled o ->
  (forall y, o = PresentOptional y -> nullish y = false /\ instanceof_Optional y = false) ->
  exists a,
    flatMapAsync PresentAsyncOptional AbsentAsyncOptional await (PresentOptional x) transform s
      = (Return a, s') /\
    await a = Fulfilled o.
Proof.
  intros E Ht Ho. eexists. split.
  - unfold flatMapAsync, bind, ret. rewrite E. reflexivity.
  - rewrite Ht. simpl. destruct o as [y |]; [| reflexivity].
    destruct (Ho y eq_refl) as [Hn Hi]. simpl.
    by rewrite (OptFacts.of_plain y Hi), Hn.
Qed.

Lemma flatMapAsync_normalizes_witness :
  flatMapAsync PresentAsyncOptional AbsentAsyncOptional await (PresentOptional (VNum 1))
    (fun _ => @ret unit _ (OfPromise (Fulfilled (PresentOptional (VNum 5))))) tt
    = (Return (PresentAsyncOptional (Fulfilled (VNum 5))), tt) /\
  flatMapAsync PresentAsyncOptional AbsentAsyncOptional await (PresentOptional (VNum 1))
    (fun _ => @ret unit _ (OfAsyncOptional AbsentAsyncOptional)) tt
    = (Return (PresentAsyncOptional (Fulfilled VNull)), tt).
Proof.
  split.
  - apply (proj1 (proj2 (flatMapAsync_normalizes PresentAsyncOptional AbsentAsyncOptional
             await (fun _ => @ret unit _ (OfPromise (Fulfilled (PresentOptional (VNum 5)))))
             [] tt))
             (VNum 1) (Fulfilled (PresentOptional (VNum 5))) (PresentOptional (VNum 5)) tt);
      reflexivity.
  - apply (proj1 (proj2 (proj2 (flatMapAsync_normalizes PresentAsyncOptional
             AbsentAsyncOptional await
             (fun _ => @ret unit _ (OfAsyncOptional AbsentAsyncOptional)) [] tt)))
             (VNum 1) AbsentAsyncOptional AbsentOptional tt);
      reflexivity.
Defined.

End AsyncFacts.

(** * EntitySerializer.mapOut writes the mapped fields of its target only *)

Module SerializerFacts.
Import Serializer.


(** Exactly one of the three guards of [performMapOut] holds of a mapping. *)
Lemma guards_exclusive (m : MapOutArg) :
  (isSameTypeMap m = true /\ isDirectMap m = false /\ isIndirectMap m = false) \/
  (isSameTypeMap m = false /\ isDirectMap m = true /\ isIndirectMap m = false) \/
  (isSameTypeMap m = false /\ isDirectMap m = false /\ isIndirectMap m = true).
Proof. destruct m; simpl; auto. Qed.








(** The target may be the instance itself: later mappings read what earlier
    ones wrote. *)
Example mapOut_aliased :
  object_at (mapOut {| instance := 1%positive |} 1%positive
               [MapIndirect "a" "b" (fun _ => VNum 2); SameTypeField "b"]
               {[ 1%positive := {[ "a" := VNum 1 ]} ]}).2 1%positive
    = {[ "a" := VNum 1; "b" := VNum 2 ]}.
Proof. apply map_eq. intros k. vm_compute. reflexivity. Qed.

End SerializerFacts.

(** * Further properties of Optional.ts *)

Module OptLaws.
Import Opt Samples MoreSamples.

(** An optional that holds a plain value: not null-equivalent, not an
    [Optional] instance.  Everything [of] wraps is of this kind. *)
Lemma plain_held_of (v : value) :
  instanceof_Optional v = false ->
  forall x, Optional_of v = PresentOptional x ->
            nullish x = false /\ instanceof_Optional x = false.
Proof.
  intros Ho x. rewrite (OptFacts.of_plain v Ho).
  destruct (nullish v) eqn:Hn; [discriminate |]. intros [= <-]. auto.
Qed.

(** X1: [asJSON]/[toJSON] followed by [fromJSON] gives back an optional that
    holds a plain value or nothing; in the other direction a plain value
    comes back as it was, except that null and undefined both come back as
    null. *)
Theorem fromJSON_asJSON_round_trip (key : string) :
  (forall o,
     (forall x, o = PresentOptional x -> nullish x = false /\ instanceof_Optional x = false) ->
     fromJSON (asJSON o) = o /\ fromJSON (toJSON o key) = o) /\
  (forall v, instanceof_Optional v = false ->
     asJSON (fromJSON v) = (if nullish v then VNull else v) /\
     toJSON (fromJSON v) key = (if nullish v then VNull else v)).
Proof.
  split.
  - intros [x |] H; [| split; reflexivity].
    destruct (H x eq_refl) as [Hn Ho]. unfold fromJSON. simpl.
    by rewrite (OptFacts.of_plain x Ho), Hn.
  - intros v Ho. unfold fromJSON. rewrite (OptFacts.of_plain v Ho).
    by destruct (nullish v).
Qed.

Lemma fromJSON_asJSON_round_trip_witness :
  (fromJSON (asJSON (PresentOptional (VStr "a"))) = PresentOptional (VStr "a") /\
   fromJSON (toJSON (PresentOptional (VStr "a")) "k") = PresentOptional (VStr "a")) /\
  (asJSON (fromJSON VUndefined) = VNull /\ toJSON (fromJSON VUndefined) "k" = VNull).
Proof.
  split.
  - apply (proj1 (fromJSON_asJSON_round_trip "k") (PresentOptional (VStr "a"))).
    intros x [= <-]. split; reflexivity.
  - apply (proj2 (fromJSON_asJSON_round_trip "k") VUndefined). reflexivity.
Defined.

(** X2: [flatMap] is associative: chaining two transforms is one [flatMap]
    with the chained transform, with the same effects in the same order. *)
Theorem flatMap_assoc {S : Type} (o : Optional) (f g : value -> M S Optional) (s : S) :
  (o1 <- flatMap o f ;; flatMap o1 g) s = flatMap o (fun x => o1 <- f x ;; flatMap o1 g) s.
Proof. destruct o as [x |]; reflexivity. Qed.

(** X3: left identity.  For a value [v] that is neither null-equivalent
    nor an [Optional] instance, [Optional.of(v).flatMap(f)] is [f(v)]. *)
Theorem flatMap_left_identity {S : Type} (v : value) (f : value -> M S Optional) (s : S) :
  nullish v = false -> instanceof_Optional v = false ->
  flatMap (Optional_of v) f s = f v s.
Proof. intros Hn Ho. by rewrite (OptFacts.of_plain v Ho), Hn. Qed.

Lemma flatMap_left_identity_witness :
  flatMap (Optional_of (VNum 7)) keep_large tt = keep_large (VNum 7) tt.
Proof. apply (flatMap_left_identity (VNum 7) keep_large tt); reflexivity. Defined.

(** X4: right identity.  [o.flatMap(x => Optional.of(x))] gives [o] back
    when [o] holds a plain value or nothing. *)
Theorem flatMap_right_identity {S : Type} (o : Optional) (s : S) :
  (forall x, o = PresentOptional x -> nullish x = false /\ instanceof_Optional x = false) ->
  flatMap o (fun x => ret (Optional_of x)) s = (Return o, s).
Proof.
  intros H. destruct o as [x |]; [| reflexivity].
  destruct (H x eq_refl) as [Hn Ho]. unfold flatMap, ret.
  by rewrite (OptFacts.of_plain x Ho), Hn.
Qed.

Lemma flatMap_right_identity_witness :
  flatMap (PresentOptional (VNum 7)) (fun x => @ret unit _ (Optional_of x)) tt
    = (Return (PresentOptional (VNum 7)), tt).
Proof.
  apply (flatMap_right_identity (PresentOptional (VNum 7)) tt).
  intros x [= <-]. split; reflexivity.
Defined.

(** X5: mapping the identity over an optional that holds a plain value or
    nothing gives the optional back. *)
Theorem map_identity {S : Type} (o : Optional) (s : S) :
  (forall x, o = PresentOptional x -> nullish x = false /\ instanceof_Optional x = false) ->
  map o (fun x => ret x) s = (Return o, s).
Proof.
  intros H. destruct o as [x |]; [| reflexivity].
  destruct (H x eq_refl) as [Hn Ho]. unfold map, bind, ret.
  by rewrite (OptFacts.of_plain x Ho), Hn.
Qed.

Lemma map_identity_witness :
  map (Optional_of (VNum 5)) (fun x => @ret unit _ x) tt = (Return (Optional_of (VNum 5)), tt).
Proof.
  apply (map_identity (Optional_of (VNum 5)) tt).
  apply plain_held_of. reflexivity.
Defined.

(** X6: two filters in a row are one filter with the conjunction [p(x) &&
    q(x)]: the second predicate runs only when the first one held. *)
Theorem filter_filter {S : Type} (o : Optional) (p q : value -> M S bool) (s : S) :
  (o1 <- filter o p ;; filter o1 q) s
    = filter o (fun x => b <- p x ;; if b : bool then q x else ret false) s.
Proof.
  destruct o as [x |]; [| reflexivity].
  unfold filter, bind, ret.
  destruct (p x s) as [[[] | e] s1]; reflexivity.
Qed.

(** X7: [filter] never changes what an optional holds: its result is the
    receiver or an absent optional, and a present result is the receiver. *)
Theorem filter_keeps_value {S : Type} (o o' : Optional) (p : value -> M S bool) (s s' : S) :
  filter o p s = (Return o', s') ->
  (o' = o \/ o' = AbsentOptional) /\ (isPresent o' = true -> o' = o).
Proof.
  destruct o as [x |]; unfold filter, bind, ret.
  - destruct (p x s) as [[[] | e] s1]; intros [= <- <-]; split; auto; discriminate.
  - intros [= <- <-]. auto.
Qed.

Lemma filter_keeps_value_witness :
  (PresentOptional (VNum 5) = Optional_of (VNum 5) \/ PresentOptional (VNum 5) = AbsentOptional) /\
  (isPresent (PresentOptional (VNum 5)) = true -> PresentOptional (VNum 5) = Optional_of (VNum 5)).
Proof.
  apply (filter_keeps_value (Optional_of (VNum 5)) (PresentOptional (VNum 5)) equals_five tt tt).
  reflexivity.
Defined.

(** X8: an exception thrown by the callback of [map], [flatMap], [filter] or
    [orGet] leaves the combinator as it is, with the state the callback left
    behind: nothing is caught or wrapped. *)
Theorem callback_errors_propagate {S : Type} (x e : value) (s s' : S) :
  (forall f : value -> M S value, f x s = (Throw e, s') ->
     map (PresentOptional x) f s = (Throw e, s')) /\
  (forall f : value -> M S Optional, f x s = (Throw e, s') ->
     flatMap (PresentOptional x) f s = (Throw e, s')) /\
  (forall p : value -> M S bool, p x s = (Throw e, s') ->
     filter (PresentOptional x) p s = (Throw e, s')) /\
  (forall supplier : unit -> M S value, supplier tt s = (Throw e, s') ->
     orGet AbsentOptional supplier s = (Throw e, s')).
Proof.
  repeat split; intros f E; unfold map, flatMap, filter, orGet, bind; by rewrite E.
Qed.

Lemma callback_errors_propagate_witness :
  map (PresentOptional (VNum 1)) count_then_throw 0 = (Throw (VError Error "boom"), 1) /\
  filter (PresentOptional (VNum 1)) count_then_throw 0 = (Throw (VError Error "boom"), 1).
Proof.
  split.
  - apply (proj1 (callback_errors_propagate (VNum 1) (VError Error "boom") 0 1)).
    reflexivity.
  - apply (proj1 (proj2 (proj2
             (callback_errors_propagate (VNum 1) (VError Error "boom") 0 1)))).
    reflexivity.
Defined.

(** X9: the guard contract.  When [isPresent()] is true, [get], [orElse],
    [asJSON] and [toJSON] all give the same held value and [get] does not
    throw; when it is false, [isAbsent()] is true, [get] throws the
    value-missing error, [orElse] gives the fallback and the JSON form is
    null. *)
Theorem unwrapping_agrees (o : Optional) (other : value) (key : string) :
  (isPresent o = true ->
     isAbsent o = false /\
     exists v, o = PresentOptional v /\ get o = Return v /\ orElse o other = v /\
               asJSON o = v /\ toJSON o key = v) /\
  (isPresent o = false ->
     isAbsent o = true /\ o = AbsentOptional /\
     get o = Throw (VError OptionalValueMissingError get_message) /\
     orElse o other = other /\ asJSON o = VNull /\ toJSON o key = VNull).
Proof.
  destruct o as [v |]; simpl; split; intros H; try discriminate H.
  - split; [reflexivity |]. exists v. repeat split.
  - repeat split.
Qed.

Lemma unwrapping_agrees_witness :
  (isAbsent (Optional_of (VNum 5)) = false /\
   exists v, Optional_of (VNum 5) = PresentOptional v /\ get (Optional_of (VNum 5)) = Return v /\
             orElse (Optional_of (VNum 5)) VNull = v /\
             asJSON (Optional_of (VNum 5)) = v /\ toJSON (Optional_of (VNum 5)) "k" = v) /\
  (isAbsent empty = true /\ empty = AbsentOptional /\
   get empty = Throw (VError OptionalValueMissingError get_message) /\
   orElse empty VNull = VNull /\ asJSON empty = VNull /\ toJSON empty "k" = VNull).
Proof.
  split.
  - apply (proj1 (unwrapping_agrees (Optional_of (VNum 5)) VNull "k")). reflexivity.
  - apply (proj2 (unwrapping_agrees empty VNull "k")). reflexivity.
Defined.

(** X10: [orElse] takes a value and calls nothing.  [orGet] leaves its
    supplier alone on a present optional; on an absent one it calls it
    exactly once and its outcome, result or exception, is the outcome of
    [orGet].  With a supplier that just returns [x], [orGet] is
    [orElse(x)]. *)
Theorem orGet_lazy {S : Type} (o : Optional) (supplier : unit -> M S value)
  (calls : list unit) (s : S) :
  orGet o (spy supplier) (calls, s)
    = (if isPresent o then (Return (orElse o VUndefined), (calls, s))
       else ((supplier tt s).1, (calls ++ [tt], (supplier tt s).2))) /\
  (forall x, orGet o (fun _ => ret x) s = (Return (orElse o x), s)).
Proof.
  destruct o as [v |]; split; try reflexivity.
  unfold orGet, spy. simpl. by destruct (supplier tt s).
Qed.

End OptLaws.

(** * Further properties of the bridge to AsyncOptional *)

Module AsyncLaws.
Import Opt Async MoreSamples.

(** X11: on a present optional, [mapAsync] calls the transform once on the
    held value and hands its pending computation to [fromPromise] as it is,
    whatever it resolves to; on an absent optional it returns the absent
    [AsyncOptional] without calling the transform. *)
Theorem mapAsync_contract {S AsyncOptional : Type}
  (fromPromise : Promise value -> AsyncOptional) (new_AbsentAsyncOptional : AsyncOptional)
  (transform : value -> M S (Promise value)) (calls : list value) (s : S) :
  (forall x p s', transform x s = (Return p, s') ->
     mapAsync fromPromise new_AbsentAsyncOptional (PresentOptional x) (spy transform) (calls, s)
       = (Return (fromPromise p), (calls ++ [x], s'))) /\
  mapAsync fromPromise new_AbsentAsyncOptional AbsentOptional (spy transform) (calls, s)
    = (Return new_AbsentAsyncOptional, (calls, s)).
Proof.
  split; [| reflexivity].
  intros x p s' E. unfold mapAsync, bind, ret, spy. simpl. by rewrite E.
Qed.

Lemma mapAsync_contract_witness :
  mapAsync (@Some (Promise value)) None (PresentOptional (VNum 1)) (spy resolved_succ) ([], tt)
    = (Return (Some (Fulfilled (VNum 2))), ([VNum 1], tt)).
Proof.
  apply (proj1 (mapAsync_contract (@Some (Promise value)) None resolved_succ [] tt)
           (VNum 1) (Fulfilled (VNum 2)) tt).
  reflexivity.
Defined.

(** X12: a transform that throws before it returns its pending computation
    makes [mapAsync] and [flatMapAsync] throw at once: the exception is not
    turned into a rejected computation, and nothing reaches [fromPromise]. *)
Theorem async_transform_throws_at_once {S AsyncOptional : Type}
  (fromPromise : Promise value -> AsyncOptional) (new_AbsentAsyncOptional : AsyncOptional)
  (async_then : AsyncOptional -> Promise Optional) (x e : value) (s s' : S) :
  (forall t : value -> M S (Promise value), t x s = (Throw e, s') ->
     mapAsync fromPromise new_AbsentAsyncOptional (PresentOptional x) t s = (Throw e, s')) /\
  (forall t : value -> M S (Thenable AsyncOptional), t x s = (Throw e, s') ->
     flatMapAsync fromPromise new_AbsentAsyncOptional async_then (PresentOptional x) t s
       = (Throw e, s')).
Proof.
  split; intros t E; unfold mapAsync, flatMapAsync, bind; by rewrite E.
Qed.

Lemma async_transform_throws_at_once_witness :
  mapAsync (@Some (Promise value)) None (PresentOptional (VNum 1)) count_then_throw 0
    = (Throw (VError Error "boom"), 1).
Proof.
  apply (proj1 (async_transform_throws_at_once (@Some (Promise value)) None
                  (fun _ => Pending) (VNum 1) (VError Error "boom") 0 1)).
  reflexivity.
Defined.

End AsyncLaws.

(** * Further properties of EntitySerializer.mapOut *)

Module SerializerLaws.
Import Serializer.












End SerializerLaws.

(** * Properties of getValue *)

Module PathFacts.
Import Stdlib.Strings.Ascii.
Import Serializer Path.

Lemma replace_char_app (a b : ascii) (s1 s2 : string) :
  replace_char a b (s1 +:+ s2) = replace_char a b s1 +:+ replace_char a b s2.
Proof. induction s1 as [| c r IH]; simpl; [reflexivity |]. by rewrite IH. Qed.

Lemma remove_char_app (a : ascii) (s1 s2 : string) :
  remove_char a (s1 +:+ s2) = remove_char a s1 +:+ remove_char a s2.
Proof.
  induction s1 as [| c r IH]; simpl; [reflexivity |].
  destruct (Ascii.eqb c a); simpl; by rewrite IH.
Qed.

Lemma replace_char_absent (a b : ascii) (s : string) :
  has_char a s = false -> replace_char a b s = s.
Proof.
  induction s as [| c r IH]; simpl; [reflexivity |].
  destruct (Ascii.eqb c a); simpl; [discriminate |]. intros H. by rewrite IH.
Qed.

Lemma remove_char_absent (a : ascii) (s : string) :
  has_char a s = false -> remove_char a s = s.
Proof.
  induction s as [| c r IH]; simpl; [reflexivity |].
  destruct (Ascii.eqb c a); simpl; [discriminate |]. intros H. by rewrite IH.
Qed.

Lemma split_char_absent (a : ascii) (s : string) :
  has_char a s = false -> split_char a s = [s].
Proof.
  induction s as [| c r IH]; simpl; [reflexivity |].
  destruct (Ascii.eqb c a); simpl; [discriminate |]. intros H. by rewrite IH.
Qed.

Lemma split_char_nonempty (a : ascii) (s : string) : split_char a s <> [].
Proof.
  destruct s as [| c r]; simpl; [discriminate |].
  destruct (Ascii.eqb c a); [discriminate |].
  destruct (split_char a r); discriminate.
Qed.

Lemma split_char_app_sep (a : ascii) (s1 s2 : string) :
  split_char a (s1 +:+ String a s2) = split_char a s1 ++ split_char a s2.
Proof.
  induction s1 as [| c r IH]; simpl.
  - by rewrite Ascii.eqb_refl.
  - destruct (Ascii.eqb c a); [by rewrite IH |].
    rewrite IH. pose proof (split_char_nonempty a r) as Hne.
    destruct (split_char a r) as [| k ks]; [done | reflexivity].
Qed.

(** The pieces of a split do not contain the separator, nor any character
    the string did not contain. *)
Lemma split_char_pieces (a c : ascii) (s : string) :
  forall k, k ∈ split_char a s ->
            has_char a k = false /\ (has_char c s = false -> has_char c k = false).
Proof.
  induction s as [| d r IH]; simpl; intros k Hk.
  - apply list_elem_of_singleton in Hk as ->. auto.
  - destruct (Ascii.eqb d a) eqn:Hd.
    + apply elem_of_cons in Hk as [-> | Hk]; [auto |].
      destruct (IH k Hk) as [H1 H2]. split; [done |].
      intros H. apply orb_false_iff in H as [_ H]. auto.
    + pose proof (split_char_nonempty a r) as Hne.
      destruct (split_char a r) as [| k0 ks]; [done |].
      apply elem_of_cons in Hk as [-> | Hk].
      * destruct (IH k0 (list_elem_of_here _ _)) as [H1 H2]. simpl. rewrite Hd. split; [done |].
        intros H. apply orb_false_iff in H as [-> H]. auto.
      * destruct (IH k (list_elem_of_further _ _ _ Hk)) as [H1 H2]. split; [done |].
        intros H. apply orb_false_iff in H as [_ H]. auto.
Qed.

Lemma replace_char_gone (a b : ascii) (s : string) :
  Ascii.eqb b a = false -> has_char a (replace_char a b s) = false.
Proof.
  intros Hb. induction s as [| c r IH]; simpl; [reflexivity |].
  destruct (Ascii.eqb c a) eqn:Hc; by rewrite ?Hb, ?Hc, IH.
Qed.

Lemma remove_char_gone (a : ascii) (s : string) : has_char a (remove_char a s) = false.
Proof.
  induction s as [| c r IH]; simpl; [reflexivity |].
  destruct (Ascii.eqb c a) eqn:Hc; simpl; by rewrite ?Hc, ?IH.
Qed.

Lemma remove_char_keeps_absent (a c : ascii) (s : string) :
  has_char c s = false -> has_char c (remove_char a s) = false.
Proof.
  induction s as [| d r IH]; simpl; [reflexivity |].
  intros H. apply orb_false_iff in H as [Hd H].
  destruct (Ascii.eqb d a); simpl; by rewrite ?Hd, IH.
Qed.

Lemma path_keys_app_dot (p1 p2 : string) :
  path_keys (p1 +:+ "." +:+ p2) = path_keys p1 ++ path_keys p2.
Proof.
  unfold path_keys. rewrite !replace_char_app, !remove_char_app. simpl.
  apply split_char_app_sep.
Qed.

Lemma path_keys_app_open (p1 p2 : string) :
  path_keys (p1 +:+ "[" +:+ p2) = path_keys p1 ++ path_keys p2.
Proof.
  unfold path_keys. rewrite !replace_char_app, !remove_char_app. simpl.
  apply split_char_app_sep.
Qed.

Lemma path_keys_app_close (p1 p2 : string) :
  path_keys (p1 +:+ "]" +:+ p2) = path_keys (p1 +:+ p2).
Proof.
  unfold path_keys. by rewrite !replace_char_app, !remove_char_app.
Qed.

Lemma path_keys_plain (path : string) :
  has_char "." path = false -> has_char "[" path = false -> has_char "]" path = false ->
  path_keys path = [path].
Proof.
  intros Hd Ho Hc. unfold path_keys.
  rewrite (replace_char_absent _ _ _ Ho), (remove_char_absent _ _ Hc).
  by apply split_char_absent.
Qed.

(** X16: the keys of a path.  There is always at least one; none of them
    contains a dot or a bracket; and a path without dots and brackets is one
    key, the path itself (the empty path is the empty key). *)
Theorem path_keys_shape (path : string) :
  path_keys path <> [] /\
  (forall k, k ∈ path_keys path ->
     has_char "." k = false /\ has_char "[" k = false /\ has_char "]" k = false) /\
  (has_char "." path = false -> has_char "[" path = false -> has_char "]" path = false ->
   path_keys path = [path]).
Proof.
  split; [apply split_char_nonempty |]. split.
  - intros k Hk. unfold path_keys in Hk.
    destruct (split_char_pieces "." "[" _ k Hk) as [H1 H2].
    destruct (split_char_pieces "." "]" _ k Hk) as [_ H3].
    split; [done |]. split.
    + apply H2. apply remove_char_keeps_absent. by apply replace_char_gone.
    + apply H3. apply remove_char_gone.
  - apply path_keys_plain.
Qed.

Lemma path_keys_shape_witness : path_keys "name" = ["name"].
Proof. apply (proj2 (proj2 (path_keys_shape "name"))); reflexivity. Defined.

Section GetValueFacts.
Variable inherited : value -> string -> value.
Variable Object_prototype : string -> value.
Variable inherits_asJSON : loc -> bool.
Variable call_asJSON : loc -> Outcome value.

Lemma getValue_keys (h : gmap loc (gmap string value)) (p q : string) (object : value) :
  path_keys p = path_keys q ->
  getValue inherited Object_prototype inherits_asJSON call_asJSON h p object
    = getValue inherited Object_prototype inherits_asJSON call_asJSON h q object.
Proof. intros H. unfold getValue. by rewrite H. Qed.

(** X17: bracket and dot notation are interchangeable, and a closing bracket
    is ignored wherever it stands: [a[0].b], [a.0.b] and [a[0.b] read the
    same property. *)
Theorem getValue_bracket_is_dot (h : gmap loc (gmap string value))
  (p1 i p2 : string) (object : value) :
  getValue inherited Object_prototype inherits_asJSON call_asJSON h
    (p1 +:+ "[" +:+ i +:+ "]" +:+ p2) object
  = getValue inherited Object_prototype inherits_asJSON call_asJSON h
      (p1 +:+ "." +:+ i +:+ p2) object /\
  getValue inherited Object_prototype inherits_asJSON call_asJSON h
    (p1 +:+ "]" +:+ p2) object
  = getValue inherited Object_prototype inherits_asJSON call_asJSON h
      (p1 +:+ p2) object.
Proof.
  split; apply getValue_keys.
  - rewrite path_keys_app_open, path_keys_app_dot. f_equal.
    apply path_keys_app_close.
  - apply path_keys_app_close.
Qed.

(** X18: a path that starts with a bracket or a dot first reads the property
    whose name is the empty string: ["[0]"] on an array is [array[""][0]],
    not [array[0]]. *)
Theorem getValue_leading_separator (h : gmap loc (gmap string value))
  (p : string) (object : value) :
  getValue inherited Object_prototype inherits_asJSON call_asJSON h ("[" +:+ p) object
  = getValue inherited Object_prototype inherits_asJSON call_asJSON h p
      (step inherited Object_prototype h object "") /\
  getValue inherited Object_prototype inherits_asJSON call_asJSON h ("." +:+ p) object
  = getValue inherited Object_prototype inherits_asJSON call_asJSON h p
      (step inherited Object_prototype h object "").
Proof.
  pose proof (path_keys_app_open "" p) as Ho.
  pose proof (path_keys_app_dot "" p) as Hd.
  change ("" +:+ "[" +:+ p) with ("[" +:+ p) in Ho.
  change ("" +:+ "." +:+ p) with ("." +:+ p) in Hd.
  split; unfold getValue, traverse.
  - by rewrite Ho.
  - by rewrite Hd.
Qed.

Lemma traverse_app (h : gmap loc (gmap string value)) (ks1 ks2 : list string) (v : value) :
  traverse inherited Object_prototype h (ks1 ++ ks2) v
    = traverse inherited Object_prototype h ks2 (traverse inherited Object_prototype h ks1 v).
Proof. unfold traverse. apply fold_left_app. Qed.

Lemma traverse_falsy (h : gmap loc (gmap string value)) (keys : list string) :
  forall v, truthy v = false -> keys <> [] ->
    (forall k, k ∈ keys -> Object_prototype k = VUndefined) ->
    traverse inherited Object_prototype h keys v = VUndefined.
Proof.
  unfold traverse. induction keys as [| k ks IH]; intros v Hv Hne Hk; [done |].
  simpl. assert (Hs : step inherited Object_prototype h v k = VUndefined).
  { unfold step. rewrite Hv. apply Hk. apply list_elem_of_here. }
  rewrite Hs. destruct ks as [| k' ks']; [reflexivity |].
  apply IH; [reflexivity | discriminate |].
  intros k0 Hk0. apply Hk. by apply list_elem_of_further.
Qed.

(** X19: a missing intermediate value does not make [getValue] throw: once
    the walk reaches a falsy value (undefined, null, false, 0 or the empty
    string), the rest of the path reads [undefined], provided its keys are
    not names that an empty object inherits. *)
Theorem getValue_missing (h : gmap loc (gmap string value)) (p1 p2 : string) (object : value) :
  truthy (traverse inherited Object_prototype h (path_keys p1) object) = false ->
  (forall k, k ∈ path_keys p2 -> Object_prototype k = VUndefined) ->
  getValue inherited Object_prototype inherits_asJSON call_asJSON h (p1 +:+ "." +:+ p2) object
    = Return VUndefined.
Proof.
  intros Hf Hk. unfold getValue. rewrite path_keys_app_dot, traverse_app.
  rewrite (traverse_falsy h (path_keys p2) _ Hf (split_char_nonempty _ _) Hk).
  reflexivity.
Qed.

(** X20: a plain field name (no dot, no bracket) reads that own property of a
    stored object.  An [Optional] found there is replaced by its [asJSON()],
    so an absent one reads as null; a value without an [asJSON] method is
    returned as it is. *)
Theorem getValue_own_field (h : gmap loc (gmap string value)) (name : string) (l : loc) :
  has_char "." name = false -> has_char "[" name = false -> has_char "]" name = false ->
  (forall o, object_at h l !! name = Some (VOptional o) ->
     getValue inherited Object_prototype inherits_asJSON call_asJSON h name (VObject l)
       = Return (Opt.asJSON o)) /\
  (forall v, object_at h l !! name = Some v -> in_asJSON inherits_asJSON h v = false ->
     getValue inherited Object_prototype inherits_asJSON call_asJSON h name (VObject l)
       = Return v).
Proof.
  intros Hd Ho Hc.
  pose proof (path_keys_plain name Hd Ho Hc) as Hkeys.
  split.
  - intros o E. unfold getValue. rewrite Hkeys. simpl. unfold step. simpl.
    by rewrite E.
  - intros v E Hin. unfold getValue. rewrite Hkeys. simpl. unfold step. simpl.
    rewrite E, Hin. by rewrite !andb_false_r.
Qed.
End GetValueFacts.

Lemma getValue_missing_witness :
  getValue nothing_inherited bare_prototype no_asJSON asJSON_unused sample_store
    ("user.age" +:+ "." +:+ "unit") (VObject 1)
    = Return VUndefined.
Proof.
  apply (getValue_missing nothing_inherited bare_prototype no_asJSON asJSON_unused
           sample_store "user.age" "unit" (VObject 1)).
  - vm_compute. reflexivity.
  - intros k _. reflexivity.
Defined.

Lemma getValue_own_field_witness :
  getValue nothing_inherited bare_prototype no_asJSON asJSON_unused sample_store
    "nick" (VObject 2) = Return VNull /\
  getValue nothing_inherited bare_prototype no_asJSON asJSON_unused sample_store
    "name" (VObject 2) = Return (VStr "Ann").
Proof.
  split.
  - apply (proj1 (getValue_own_field nothing_inherited bare_prototype no_asJSON asJSON_unused
                    sample_store "nick" 2%positive eq_refl eq_refl eq_refl) AbsentOptional).
    vm_compute. reflexivity.
  - apply (proj2 (getValue_own_field nothing_inherited bare_prototype no_asJSON asJSON_unused
                    sample_store "name" 2%positive eq_refl eq_refl eq_refl) (VStr "Ann")).
    + vm_compute. reflexivity.
    + reflexivity.
Defined.

Example getValue_nested :
  getValue nothing_inherited bare_prototype no_asJSON asJSON_unused sample_store
    "tags[0]" (VObject 1) = Return (VStr "x").
Proof. vm_compute. reflexivity. Qed.

End PathFacts.

(** * Properties of mapTo *)

Module MapToFacts.
Import Stdlib.Strings.Ascii.
Import Serializer Path MapTo.







Section MapToFacts.
Variable inherited : value -> string -> value.
Variable Object_prototype : string -> value.
Variable inherits_asJSON : loc -> bool.
Variable call_asJSON : loc -> Outcome value.
Variable this : EntitySerializer.


Lemma mapEntries_app (m1 m2 : list (string * MapConfig)) (target : loc) :
  forall h : gmap loc (gmap string value),
    mapEntries inherited Object_prototype inherits_asJSON call_asJSON this
      (m1 ++ m2) target h
    = match mapEntries inherited Object_prototype inherits_asJSON call_asJSON this
              m1 target h with
      | Some (Return _, h') =>
          mapEntries inherited Object_prototype inherits_asJSON call_asJSON this
            m2 target h'
      | other => other
      end.
Proof.
  induction m1 as [| [k c] m1 IH]; intros h; [reflexivity |].
  simpl. destruct (mapEntry _ _ _ _ _ c k target h) as [[[[] | e] h1] |];
    [apply IH | reflexivity | reflexivity].
Qed.





(** X24: an entry whose config is null, or is neither a function, an object
    nor a string, is skipped: the mapping without it does the same. *)
Theorem mapTo_skips (m1 m2 : list (string * MapConfig)) (k : string) (config : MapConfig)
  (target : option loc) (h : gmap loc (gmap string value)) :
  config = CfgNull \/ config = CfgOther ->
  mapTo inherited Object_prototype inherits_asJSON call_asJSON this
    (m1 ++ (k, config) :: m2) target h
  = mapTo inherited Object_prototype inherits_asJSON call_asJSON this (m1 ++ m2) target h.
Proof.
  intros Hc. unfold mapTo.
  destruct (match target with
            | Some t => (t, h)
            | None => (new_object h, allocate h)
            end) as [t h0].
  rewrite !mapEntries_app.
  destruct (mapEntries _ _ _ _ _ m1 t h0) as [[[[] | e] h1] |]; [| reflexivity | reflexivity].
  by destruct Hc as [-> | ->].
Qed.
End MapToFacts.




Lemma mapTo_skips_witness :
  mapTo nothing_inherited bare_prototype no_asJSON asJSON_unused {| instance := 2%positive |}
    ([("name", CfgString "name")] ++ ("gone", CfgNull) :: []) (Some 3%positive) sample_store
  = mapTo nothing_inherited bare_prototype no_asJSON asJSON_unused {| instance := 2%positive |}
      ([("name", CfgString "name")] ++ []) (Some 3%positive) sample_store.
Proof.
  apply (mapTo_skips nothing_inherited bare_prototype no_asJSON asJSON_unused
           {| instance := 2%positive |} [("name", CfgString "name")] [] "gone" CfgNull
           (Some 3%positive) sample_store).
  left. reflexivity.
Defined.

(** The sample mapping builds [{ name: "Ann", contact: { alias: null, upper: undefined } }]
    in a new object. *)
Example sample_run_result :
  exists t c h',
    sample_run = Some (Return t, h') /\
    object_at h' t !! "name" = Some (VStr "Ann") /\
    object_at h' t !! "contact" = Some (VObject c) /\
    object_at h' c !! "alias" = Some VNull /\
    object_at h' c !! "upper" = Some VUndefined.
Proof.
  destruct sample_run as [[[t | e] h'] |] eqn:E; vm_compute in E; try discriminate E.
  injection E as <- <-. exists 4%positive, 5%positive. eexists.
  split; [reflexivity |]. repeat split; vm_compute; reflexivity.
Qed.

End MapToFacts.
